(** * PRD Ticket Assistant: the refinement loop of [app.py]

    A shallow embedding of the request handler [index], of the model call
    [get_ai_analysis] and of the Python runtime pieces they rest on
    ([str.strip], [str.replace], [json.loads], [dict] access), followed by
    the properties of the prompt composer and of the response interpreter.

    Text is a [string] of code units: ASCII characters are one unit each and
    other characters are their UTF-8 bytes. *)

From Stdlib Require Import String Ascii List Bool Arith ZArith Lia.
From Stdlib Require Import DecimalString DecimalNat Finite.
Import ListNotations.

#[local] Set Warnings "-register-all".

Local Open Scope list_scope.
Local Open Scope string_scope.

(* ================================================================== *)
(** ** Python text *)
(* ================================================================== *)

Module PyStr.

(** The characters the source writes with an escape or that a literal of
    this file cannot hold. *)
Definition LF : ascii := ascii_of_nat 10.
Definition DQ : ascii := ascii_of_nat 34.
Definition BSL : ascii := ascii_of_nat 92.
Definition TICK : ascii := ascii_of_nat 96.

(** [py] reads a literal the way Python reads the body of a string literal:
    backslash-n is a line feed, backslash-t a tab, a doubled backslash one
    backslash; backslash-q stands for the double quote. *)
Fixpoint py (s : string) : string :=
  match s with
  | EmptyString => EmptyString
  | String c s1 =>
      if Ascii.eqb c BSL then
        match s1 with
        | String e s2 =>
            if Ascii.eqb e "n" then String LF (py s2)
            else if Ascii.eqb e "t" then String (ascii_of_nat 9) (py s2)
            else if Ascii.eqb e "q" then String DQ (py s2)
            else if Ascii.eqb e BSL then String BSL (py s2)
            else String c (String e (py s2))
        | EmptyString => String c EmptyString
        end
      else String c (py s1)
  end.

Fixpoint drop (n : nat) (s : string) : string :=
  match n, s with
  | S k, String _ s' => drop k s'
  | _, _ => s
  end.

Fixpoint rev_onto (s acc : string) : string :=
  match s with
  | EmptyString => acc
  | String c s' => rev_onto s' (String c acc)
  end.

Definition rev (s : string) : string := rev_onto s EmptyString.

(** [sub in s] on two [str] objects. *)
Fixpoint contains (sub s : string) : bool :=
  prefix sub s
  || match s with
     | EmptyString => false
     | String _ s' => contains sub s'
     end.

(** [sub] occurs in [s]. *)
Definition occurs (sub s : string) : Prop :=
  exists a b, s = a ++ sub ++ b.

(** *** [str.replace] *)

(** One left-to-right pass over [s]; [skip] counts the characters of a
    match that are still to be passed over. *)
Fixpoint replace_from (old new : string) (skip : nat) (s : string) : string :=
  match s with
  | EmptyString => EmptyString
  | String c s' =>
      match skip with
      | S k => replace_from old new k s'
      | O =>
          if prefix old s
          then new ++ replace_from old new (String.length old - 1) s'
          else String c (replace_from old new 0 s')
      end
  end.

Fixpoint interleave (new s : string) : string :=
  match s with
  | EmptyString => new
  | String c s' => new ++ String c (interleave new s')
  end.

(** [s.replace(old, new)]: every non-overlapping occurrence, leftmost first. *)
Definition replace (old new s : string) : string :=
  match old with
  | EmptyString => interleave new s
  | String _ _ => replace_from old new 0 s
  end.

(** *** [str.strip] *)

Definition bytes (l : list nat) : string :=
  string_of_list_ascii (map ascii_of_nat l).

(** The characters for which [str.isspace] holds, as UTF-8. *)
Definition whitespace : list string :=
  map bytes
    ([[9]; [10]; [11]; [12]; [13]; [28]; [29]; [30]; [31]; [32];
      [194; 133]; [194; 160]; [225; 154; 128]]
     ++ map (fun k => [226; 128; 128 + k]) (seq 0 11)
     ++ [[226; 128; 168]; [226; 128; 169]; [226; 128; 175];
         [226; 129; 159]; [227; 128; 128]])%list.

(** Drops from the front of [s] every leading member of [seqs]. *)
Fixpoint drop_leading (seqs : list string) (fuel : nat) (s : string) : string :=
  match fuel with
  | O => s
  | S f =>
      match find (fun w => prefix w s) seqs with
      | Some w => drop_leading seqs f (drop (String.length w) s)
      | None => s
      end
  end.

Definition lstrip (s : string) : string :=
  drop_leading whitespace (String.length s) s.

Definition rstrip (s : string) : string :=
  rev (drop_leading (map rev whitespace) (String.length s) (rev s)).

Definition strip (s : string) : string := rstrip (lstrip s).

(** *** Decimal numerals, as an f-string prints an [int] *)

Definition str_nat (n : nat) : string :=
  NilEmpty.string_of_uint (Nat.to_uint n).

Definition str_Z (z : Z) : string :=
  match z with
  | Z0 => "0"
  | Zpos p => str_nat (Pos.to_nat p)
  | Zneg p => "-" ++ str_nat (Pos.to_nat p)
  end.

End PyStr.

(* ================================================================== *)
(** ** Python objects, exceptions and results *)
(* ================================================================== *)

Module Py.

(** The objects [json.loads] builds and the handler passes on: [None],
    [bool], [int], [float] (kept as the numeral it was read from), [str],
    [list] and [dict] (insertion-ordered, keys unique). *)
Inductive value : Type :=
| VNone
| VBool (b : bool)
| VInt (z : Z)
| VFloat (numeral : string)
| VStr (s : string)
| VList (items : list value)
| VDict (entries : list (string * value)).

Definition dict (A : Type) : Type := list (string * A).

Fixpoint dict_get {A : Type} (k : string) (d : dict A) : option A :=
  match d with
  | [] => None
  | (k', v) :: d' => if String.eqb k' k then Some v else dict_get k d'
  end.

(** [k in d] *)
Definition dict_mem {A : Type} (k : string) (d : dict A) : bool :=
  match dict_get k d with
  | Some _ => true
  | None => false
  end.

(** [d[k] = v]: a present key keeps its place, a new one goes last. *)
Fixpoint dict_set {A : Type} (k : string) (v : A) (d : dict A) : dict A :=
  match d with
  | [] => [(k, v)]
  | (k', v') :: d' =>
      if String.eqb k' k then (k', v) :: d' else (k', v') :: dict_set k v d'
  end.

(** [d.get(k, default)] *)
Definition dict_get_default {A : Type} (k : string) (default : A) (d : dict A) : A :=
  match dict_get k d with
  | Some v => v
  | None => default
  end.

(** [dict(pairs)] *)
Definition dict_of_pairs {A : Type} (pairs : list (string * A)) : dict A :=
  fold_left (fun d kv => dict_set (fst kv) (snd kv) d) pairs [].

(** The exceptions that can arise while a request is handled. *)
Inductive exn : Type :=
| KeyError (key : string)
| BadRequestKeyError (key : string)
| TypeError (msg : string)
| AttributeError (msg : string)
| JSONDecodeError (msg : string) (doc : string) (pos : nat)
| RecursionError (msg : string)
| CapabilityError (msg : string).

Inductive result (A : Type) : Type :=
| Ok (a : A)
| Raise (e : exn).

Arguments Ok {A} a.
Arguments Raise {A} e.

Definition bind {A B : Type} (r : result A) (k : A -> result B) : result B :=
  match r with
  | Ok a => k a
  | Raise e => Raise e
  end.

(** [line] and [column] of a position, as [JSONDecodeError.__init__]
    computes them: [doc.count(LF, 0, pos) + 1] and [pos - doc.rfind(LF, 0, pos)]. *)
Fixpoint line_column (doc : string) (pos : nat) (line col : nat) : nat * nat :=
  match pos, doc with
  | S p, String c doc' =>
      if Ascii.eqb c PyStr.LF
      then line_column doc' p (S line) 1
      else line_column doc' p line (S col)
  | _, _ => (line, col)
  end.

(** [str(e)] *)
Definition str_exn (e : exn) : string :=
  match e with
  | KeyError key => "'" ++ key ++ "'"
  | BadRequestKeyError key =>
      "400 Bad Request: The browser (or proxy) sent a request that this server could not understand."
  | TypeError msg => msg
  | AttributeError msg => msg
  | JSONDecodeError msg doc pos =>
      let (line, col) := line_column doc pos 1 1 in
      msg ++ ": line " ++ PyStr.str_nat line ++ " column " ++ PyStr.str_nat col
          ++ " (char " ++ PyStr.str_nat pos ++ ")"
  | RecursionError msg => msg
  | CapabilityError msg => msg
  end.

End Py.

(* ================================================================== *)
(** ** [json.loads] *)
(* ================================================================== *)

(** The decoder of CPython's [json] package ([json/decoder.py] over the
    scanner of [_json.c], as of 3.8 to 3.12), on the text that is left to
    read.  A failure keeps the text at which it was detected, from which
    [loads] recovers the position. *)
Module Json.

Import PyStr Py.

Inductive scan (A : Type) : Type :=
| Scanned (a : A) (rest : string)
| Failed (msg : string) (at_text : string)
| TooDeep.

Arguments Scanned {A} a rest.
Arguments Failed {A} msg at_text.
Arguments TooDeep {A}.

Definition scan_bind {A B : Type} (r : scan A) (k : A -> string -> scan B) : scan B :=
  match r with
  | Scanned a rest => k a rest
  | Failed msg t => Failed msg t
  | TooDeep => TooDeep
  end.

Definition scan_map {A B : Type} (f : A -> B) (r : scan A) : scan B :=
  scan_bind r (fun a rest => Scanned (f a) rest).

Definition is_ws (c : ascii) : bool :=
  (Ascii.eqb c " " || Ascii.eqb c (ascii_of_nat 9)
   || Ascii.eqb c (ascii_of_nat 10) || Ascii.eqb c (ascii_of_nat 13))%bool.

Fixpoint skip_ws (s : string) : string :=
  match s with
  | String c s' => if is_ws c then skip_ws s' else s
  | EmptyString => s
  end.

Definition is_digit (c : ascii) : bool :=
  let n := nat_of_ascii c in Nat.leb 48 n && Nat.leb n 57.

Definition hex_digit (c : ascii) : option N :=
  let n := N_of_ascii c in
  if (48 <=? n)%N && (n <=? 57)%N then Some (n - 48)%N
  else if (65 <=? n)%N && (n <=? 70)%N then Some (n - 55)%N
  else if (97 <=? n)%N && (n <=? 102)%N then Some (n - 87)%N
  else None.

Definition hex4 (a b c d : ascii) : option N :=
  match hex_digit a, hex_digit b, hex_digit c, hex_digit d with
  | Some x, Some y, Some z, Some w => Some (((x * 16 + y) * 16 + z) * 16 + w)%N
  | _, _, _, _ => None
  end.

Definition byte_string (l : list N) : string :=
  string_of_list_ascii (map ascii_of_N l).

(** A code point as UTF-8 (a lone surrogate takes the three-byte form). *)
Definition utf8 (cp : N) : string :=
  (if cp <? 128 then byte_string [cp]
   else if cp <? 2048 then byte_string [192 + cp / 64; 128 + cp mod 64]
   else if cp <? 65536 then
     byte_string [224 + cp / 4096; 128 + (cp / 64) mod 64; 128 + cp mod 64]
   else
     byte_string [240 + cp / 262144; 128 + (cp / 4096) mod 64;
                  128 + (cp / 64) mod 64; 128 + cp mod 64])%N.

Definition is_high_surrogate (cp : N) : bool := ((55296 <=? cp) && (cp <=? 56319))%N.
Definition is_low_surrogate (cp : N) : bool := ((56320 <=? cp) && (cp <=? 57343))%N.
Definition join_surrogates (hi lo : N) : N :=
  (65536 + (hi - 55296) * 1024 + (lo - 56320))%N.

Definition simple_escape (e : ascii) : option ascii :=
  if Ascii.eqb e DQ then Some DQ
  else if Ascii.eqb e BSL then Some BSL
  else if Ascii.eqb e "/" then Some "/"%char
  else if Ascii.eqb e "b" then Some (ascii_of_nat 8)
  else if Ascii.eqb e "f" then Some (ascii_of_nat 12)
  else if Ascii.eqb e "n" then Some (ascii_of_nat 10)
  else if Ascii.eqb e "r" then Some (ascii_of_nat 13)
  else if Ascii.eqb e "t" then Some (ascii_of_nat 9)
  else None.

Definition unterminated : string := "Unterminated string starting at".
Definition bad_uXXXX : string := "Invalid \uXXXX escape".
Definition bad_escape : string := "Invalid \escape".
Definition bad_control : string := "Invalid control character at".
Definition expecting_value : string := "Expecting value".
Definition expecting_name : string :=
  "Expecting property name enclosed in double quotes".
Definition expecting_colon : string := "Expecting ':' delimiter".
Definition expecting_comma : string := "Expecting ',' delimiter".

(** [scanstring_unicode], strict: [s] is the text after the opening quote,
    [begin] the text from that quote on. *)
Fixpoint scanstring (begin s : string) : scan string :=
  match s with
  | EmptyString => Failed unterminated begin
  | String c s1 =>
      if Ascii.eqb c DQ then Scanned EmptyString s1
      else if Ascii.eqb c BSL then
        match s1 with
        | EmptyString => Failed unterminated begin
        | String e s2 =>
            if Ascii.eqb e "u" then
              match s2 with
              | String h1 (String h2 (String h3 (String h4 (String _ _ as s6)))) =>
                  match hex4 h1 h2 h3 h4 with
                  | None => Failed bad_uXXXX s1
                  | Some cp =>
                      match s6 with
                      | String b (String u (String l1 (String l2 (String l3
                          (String l4 (String _ _ as s12)))))) =>
                          if is_high_surrogate cp && Ascii.eqb b BSL && Ascii.eqb u "u"
                          then
                            match hex4 l1 l2 l3 l4 with
                            | None =>
                                match s6 with
                                | String _ t => Failed bad_uXXXX t
                                | EmptyString => Failed bad_uXXXX s6
                                end
                            | Some lo =>
                                if is_low_surrogate lo
                                then scan_map (append (utf8 (join_surrogates cp lo)))
                                              (scanstring begin s12)
                                else scan_map (append (utf8 cp)) (scanstring begin s6)
                            end
                          else scan_map (append (utf8 cp)) (scanstring begin s6)
                      | _ => scan_map (append (utf8 cp)) (scanstring begin s6)
                      end
                  end
              | _ => Failed bad_uXXXX s1
              end
            else
              match simple_escape e with
              | Some ch => scan_map (String ch) (scanstring begin s2)
              | None => Failed bad_escape s
              end
        end
      else if Nat.leb (nat_of_ascii c) 31 then Failed bad_control s
      else scan_map (String c) (scanstring begin s1)
  end.

Fixpoint span_digits (s : string) : string * string :=
  match s with
  | String c s' =>
      if is_digit c
      then let (ds, rest) := span_digits s' in (String c ds, rest)
      else (EmptyString, s)
  | EmptyString => (EmptyString, s)
  end.

Definition digits_value (ds : string) : Z :=
  fold_left (fun acc c => (acc * 10 + Z.of_nat (nat_of_ascii c - 48))%Z)
            (list_ascii_of_string ds) 0%Z.

(** The integer part [0|[1-9][0-9]*] of a numeral. *)
Definition integer_part (s : string) : option (string * string) :=
  match s with
  | String c s' =>
      if Ascii.eqb c "0" then Some ("0", s')
      else if is_digit c then
        let (ds, rest) := span_digits s' in Some (String c ds, rest)
      else None
  | EmptyString => None
  end.

(** The fraction [\.[0-9]+], when there is one. *)
Definition fraction_part (s : string) : string * string :=
  match s with
  | String c (String d _ as s') =>
      if Ascii.eqb c "." && is_digit d
      then let (ds, rest) := span_digits s' in (String c ds, rest)
      else (EmptyString, s)
  | _ => (EmptyString, s)
  end.

(** The exponent [[eE][-+]?[0-9]+], when there is one. *)
Definition exponent_part (s : string) : string * string :=
  match s with
  | String e (String c s2 as s1) =>
      if Ascii.eqb e "e" || Ascii.eqb e "E" then
        if (Ascii.eqb c "-" || Ascii.eqb c "+") then
          match span_digits s2 with
          | (EmptyString, _) => (EmptyString, s)
          | (ds, rest) => (String e (String c ds), rest)
          end
        else
          match span_digits s1 with
          | (EmptyString, _) => (EmptyString, s)
          | (ds, rest) => (String e ds, rest)
          end
      else (EmptyString, s)
  | _ => (EmptyString, s)
  end.

(** [_match_number_unicode] *)
Definition match_number (s : string) : scan value :=
  let (sign, s1) :=
    match s with
    | String c s' => if Ascii.eqb c "-" then (true, s') else (false, s)
    | EmptyString => (false, s)
    end in
  match integer_part s1 with
  | None => Failed expecting_value s
  | Some (int, s2) =>
      let (frac, s3) := fraction_part s2 in
      let (exp, s4) := exponent_part s3 in
      match frac, exp with
      | EmptyString, EmptyString =>
          Scanned (VInt (if sign then - digits_value int else digits_value int)%Z) s4
      | _, _ =>
          Scanned (VFloat ((if sign then "-" else "") ++ int ++ frac ++ exp)) s4
      end
  end.

Section Containers.

(** The scanner for the terms inside, [scan_once] one level further down. *)
Variable scan_term : string -> scan value.

(** The loop of [_parse_array_unicode], entered at the first term. *)
Fixpoint array_items (n : nat) (s : string) : scan (list value) :=
  match n with
  | O => TooDeep
  | S n' =>
      scan_bind (scan_term s) (fun v s1 =>
        match skip_ws s1 with
        | String c s2 as here =>
            if Ascii.eqb c "]" then Scanned [v] s2
            else if Ascii.eqb c "," then
              scan_map (cons v) (array_items n' (skip_ws s2))
            else Failed expecting_comma here
        | EmptyString => Failed expecting_comma EmptyString
        end)
  end.

(** [_parse_array_unicode], on the text after the bracket. *)
Definition parse_array (n : nat) (s : string) : scan value :=
  match skip_ws s with
  | String c s1 as here =>
      if Ascii.eqb c "]" then Scanned (VList []) s1
      else scan_map VList (array_items n here)
  | EmptyString => scan_map VList (array_items n EmptyString)
  end.

(** The loop of [_parse_object_unicode], entered at a key. *)
Fixpoint object_pairs (n : nat) (s : string) : scan (list (string * value)) :=
  match n with
  | O => TooDeep
  | S n' =>
      match s with
      | String q s1 =>
          if Ascii.eqb q DQ then
            scan_bind (scanstring s s1) (fun key s2 =>
              match skip_ws s2 with
              | String c s3 as here =>
                  if Ascii.eqb c ":" then
                    scan_bind (scan_term (skip_ws s3)) (fun v s4 =>
                      match skip_ws s4 with
                      | String d s5 as here' =>
                          if Ascii.eqb d "}" then Scanned [(key, v)] s5
                          else if Ascii.eqb d "," then
                            scan_map (cons (key, v)) (object_pairs n' (skip_ws s5))
                          else Failed expecting_comma here'
                      | EmptyString => Failed expecting_comma EmptyString
                      end)
                  else Failed expecting_colon here
              | EmptyString => Failed expecting_colon EmptyString
              end)
          else Failed expecting_name s
      | EmptyString => Failed expecting_name s
      end
  end.

(** [_parse_object_unicode], on the text after the brace. *)
Definition parse_object (n : nat) (s : string) : scan value :=
  match skip_ws s with
  | String c s1 as here =>
      if Ascii.eqb c "}" then Scanned (VDict []) s1
      else scan_map (fun ps => VDict (dict_of_pairs ps)) (object_pairs n here)
  | EmptyString =>
      scan_map (fun ps => VDict (dict_of_pairs ps)) (object_pairs n EmptyString)
  end.

End Containers.

(** [scan_once_unicode] *)
Fixpoint scan_once (fuel : nat) (s : string) : scan value :=
  match fuel with
  | O => TooDeep
  | S f =>
      match s with
      | EmptyString => Failed expecting_value s
      | String c s1 =>
          if Ascii.eqb c DQ then scan_map VStr (scanstring s s1)
          else if Ascii.eqb c "{" then parse_object (scan_once f) f s1
          else if Ascii.eqb c "[" then parse_array (scan_once f) f s1
          else if prefix "null" s then Scanned VNone (drop 4 s)
          else if prefix "true" s then Scanned (VBool true) (drop 4 s)
          else if prefix "false" s then Scanned (VBool false) (drop 5 s)
          else if prefix "NaN" s then Scanned (VFloat "NaN") (drop 3 s)
          else if prefix "Infinity" s then Scanned (VFloat "Infinity") (drop 8 s)
          else if prefix "-Infinity" s then Scanned (VFloat "-Infinity") (drop 9 s)
          else match_number s
      end
  end.

Definition position (doc at_text : string) : nat :=
  String.length doc - String.length at_text.

(** [JSONDecoder.decode]: one term between optional whitespace, then the
    end of the text. *)
Definition decode (doc : string) : result value :=
  match scan_once (S (String.length doc)) (skip_ws doc) with
  | Scanned v rest =>
      match skip_ws rest with
      | EmptyString => Ok v
      | String _ _ as extra =>
          Raise (JSONDecodeError "Extra data" doc (position doc extra))
      end
  | Failed msg t => Raise (JSONDecodeError msg doc (position doc t))
  | TooDeep =>
      Raise (RecursionError "maximum recursion depth exceeded while decoding a JSON document")
  end.

(** [json.loads] on a [str]. *)
Definition loads (doc : string) : result value :=
  if prefix (bytes [239; 187; 191]) doc
  then Raise (JSONDecodeError "Unexpected UTF-8 BOM (decode using utf-8-sig)" doc 0)
  else decode doc.

End Json.

(* ================================================================== *)
(** ** The application *)
(* ================================================================== *)

Module App.

Import PyStr Py.

(** *** 1. Initialize and configure *)

(** What the model capability did with one call: the text of its response,
    or the exception that [generate_content] or [response.text] raised. *)
Inductive outcome : Type :=
| Replies (text : string)
| Fails (e : exn).

(** The calls made to the capability so far, oldest first; each is the list
    of contents it was given. *)
Definition history : Type := list (list string).

(** A [genai.GenerativeModel]: the service behind it answers a call in the
    light of the earlier ones. *)
Record GenerativeModel : Type := {
  respond : history -> list string -> outcome
}.

(** [os.environ[key]] *)
Definition environ_getitem (environ : dict string) (key : string) : result string :=
  match dict_get key environ with
  | Some v => Ok v
  | None => Raise (KeyError key)
  end.

(** The module-level [try] that sets the global [model]. *)
Definition init_model (environ : dict string) (service : GenerativeModel)
  : option GenerativeModel :=
  match environ_getitem environ "GOOGLE_API_KEY" with
  | Ok _ => Some service
  | Raise _ => None
  end.

(** *** 2. The system prompt *)

Definition SYSTEM_PROMPT : string :=
  py (
        "\n"
     ++ "You are a literal and precise AI assistant. Your sole function is to help a Product Owner structure their raw input into a Jira ticket.\n"
     ++ "\n"
     ++ "**Core Directives:**\n"
     ++ "1.  **Strictly Adhere to Context:** DO NOT assume, invent, or imagine any details, examples, possibilities, or edge cases not explicitly mentioned in the user's input. Your analysis must be a direct logical extension of the provided text only.\n"
     ++ "2.  **No Beautification:** The output must be plain text. Do not use markdown for styling like bolding (`**`), headers (`##`), or quotes (`>`). The only required formatting is the section titles.\n"
     ++ "3.  **Be Concise:** Do not use filler words or verbose explanations. Keep the output direct and of a reasonable length.\n"
     ++ "4.  **Handle Irrelevant Questions:** If the user responds with \qNA\q or \qirrelevant\q to a question, acknowledge it and do not ask about that topic again.\n"
     ++ "\n"
     ++ "**Workflow:**\n"
     ++ "1.  **On First Input:** Receive the `User Story` and `Context`. Analyze ONLY this information to create a draft. Identify ambiguities WITHIN the provided text and formulate them as `clarifying_questions`.\n"
     ++ "2.  **On Subsequent Inputs:** Receive the user's answers. Integrate the new, factual information into the ticket. Refine the draft. If new ambiguities arise from the answers, ask new questions. If the ticket is sufficiently detailed based on the given information, return an empty list for `clarifying_questions`.\n"
     ++ "\n"
     ++ "**Output Structure:**\n"
     ++ "Your response MUST be a valid JSON object with three keys: \qticket_draft\q, \qclarifying_questions\q, and \qopen_questions\q.\n"
     ++ "\n"
     ++ "- `ticket_draft`: A plain text string containing ONLY the following sections: `User Story`, `Context`, `Acceptance Criteria`.\n"
     ++ "- `clarifying_questions`: A list of strings for the PO to answer.\n"
     ++ "- `open_questions`: A list of strings identifying topics for developers to explore, based ONLY on ambiguities in the context.\n"
     ++ "\n"
     ++ "**Example JSON Output:**\n"
     ++ "{\n"
     ++ "  \qticket_draft\q: \qUser Story\\nAs a user, I want to see detailed error messages.\\n\\nContext\\nThe current system shows a generic 'Failed' message. We need to display specific errors from the backend.\\n\\nAcceptance Criteria\\n- The system must display specific error messages from the backend instead of 'Failed'.\q,\n"
     ++ "  \qclarifying_questions\q: [\n"
     ++ "    \qWhat specific backend error messages should be displayed?\q,\n"
     ++ "    \qShould there be a retry button for certain types of errors?\q\n"
     ++ "  ],\n"
     ++ "  \qopen_questions\q: [\n"
     ++ "    \qWhat are all the possible error categories we need to handle?\q,\n"
     ++ "    \qHow should the different errors be displayed in the UI (e.g., tooltip, table)?\q\n"
     ++ "  ]\n"
     ++ "}\n").

(** *** Computations that call the capability *)

Definition M (A : Type) : Type := history -> result A * history.

Definition ret {A : Type} (a : A) : M A := fun h => (Ok a, h).

Definition raise {A : Type} (e : exn) : M A := fun h => (Raise e, h).

Definition lift {A : Type} (r : result A) : M A := fun h => (r, h).

Definition mbind {A B : Type} (c : M A) (k : A -> M B) : M B :=
  fun h =>
    match c h with
    | (Ok a, h') => k a h'
    | (Raise e, h') => (Raise e, h')
    end.

(** [try: c  except Exception as e: handler e] *)
Definition try_except {A : Type} (c : M A) (handler : exn -> M A) : M A :=
  fun h =>
    match c h with
    | (Ok a, h') => (Ok a, h')
    | (Raise e, h') => handler e h'
    end.

Notation "x <- c ;; k" := (mbind c (fun x => k))
  (at level 61, c at next level, right associativity).

(** [model.generate_content(contents)] followed by [response.text] *)
Definition generate_content (model : GenerativeModel) (contents : list string)
  : M string :=
  fun h =>
    match respond model h contents with
    | Replies text => (Ok text, (h ++ [contents])%list)
    | Fails e => (Raise e, (h ++ [contents])%list)
    end.

(** *** 4. The AI logic function *)

Definition fence : string := String TICK (String TICK (String TICK EmptyString)).
Definition json_fence : string := fence ++ "json".

(** The two [replace] calls: [t.replace(json_fence, "").replace(fence, "")] *)
Definition remove_fences (t : string) : string :=
  replace fence "" (replace json_fence "" t).

(** [text.strip().replace(json_fence, "").replace(fence, "")] *)
Definition clean_response (text : string) : string :=
  remove_fences (strip text).

Definition error_dict (message : string) : value :=
  VDict [("error", VStr message)].

Definition get_ai_analysis (model : option GenerativeModel) (prompt : string)
  : M value :=
  match model with
  | None => ret (error_dict "API Key not configured.")
  | Some m =>
      try_except
        (text <- generate_content m [SYSTEM_PROMPT; prompt] ;;
         let cleaned_response := clean_response text in
         lift (Json.loads cleaned_response))
        (fun e => ret (error_dict ("An error occurred: " ++ str_exn e)))
  end.

(** *** 5. The main route *)

Inductive http_method : Type := GET | POST.

(** [request.form] is a multi-dict: [in] asks for a field of that name and
    subscription gives the first value sent under it. *)
Record request : Type := {
  method : http_method;
  form : list (string * string)
}.

(** [request.form[key]] *)
Definition form_getitem (form : list (string * string)) (key : string)
  : result string :=
  match dict_get key form with
  | Some v => Ok v
  | None => Raise (BadRequestKeyError key)
  end.

Inductive template : Type := HTML_TEMPLATE.

(** A page is a template with the context it is rendered in; the template
    engine itself is outside this development. *)
Inductive response : Type :=
| render_template_string (t : template) (context : dict value).

Definition type_name (v : value) : string :=
  match v with
  | VNone => "NoneType"
  | VBool _ => "bool"
  | VInt _ => "int"
  | VFloat _ => "float"
  | VStr _ => "str"
  | VList _ => "list"
  | VDict _ => "dict"
  end.

Definition is_str (key : string) (v : value) : bool :=
  match v with
  | VStr s => String.eqb s key
  | _ => false
  end.

(** [key in v] for a [str] key *)
Definition py_in (key : string) (v : value) : result bool :=
  match v with
  | VDict d => Ok (dict_mem key d)
  | VList l => Ok (existsb (is_str key) l)
  | VStr s => Ok (contains key s)
  | _ => Raise (TypeError ("argument of type '" ++ type_name v ++ "' is not iterable"))
  end.

(** [v[key]] for a [str] key *)
Definition py_getitem (v : value) (key : string) : result value :=
  match v with
  | VDict d =>
      match dict_get key d with
      | Some x => Ok x
      | None => Raise (KeyError key)
      end
  | VList _ => Raise (TypeError "list indices must be integers or slices, not str")
  | VStr _ => Raise (TypeError "string indices must be integers")
  | _ => Raise (TypeError ("'" ++ type_name v ++ "' object is not subscriptable"))
  end.

(** [v.get(key, default)] *)
Definition py_get (v : value) (key : string) (default : value) : result value :=
  match v with
  | VDict d => Ok (dict_get_default key default d)
  | _ => Raise (AttributeError ("'" ++ type_name v ++ "' object has no attribute 'get'"))
  end.

Definition question_key (i : nat) : string := "question_" ++ str_nat i.
Definition answer_key (i : nat) : string := "answer_" ++ str_nat i.

Definition answer_block (question answer : string) : string :=
  py "\n\nQuestion: " ++ question ++ py "\nAnswer: " ++ answer.

Definition answers_header : string :=
  py "\n\n--- User's Answers to Previous Questions ---".

(** The [while] loop over the numbered questions: [n] bounds the passes
    that are left, [i] and [answers_text] are the loop's variables. *)
Fixpoint answers_loop (n : nat) (form : list (string * string)) (i : nat)
    (answers_text : string) : result string :=
  match n with
  | O => Ok answers_text
  | S n' =>
      if dict_mem (question_key i) form then
        bind (form_getitem form (question_key i)) (fun question =>
        bind (form_getitem form (answer_key i)) (fun answer =>
        answers_loop n' form (S i)
          (if String.eqb answer "" then answers_text
           else answers_text ++ answer_block question answer)))
      else Ok answers_text
  end.

(** The prompt of a POST: the story and the context, then the answered
    questions.  The loop cannot make more passes than the form has fields
    (lemma [answers_loop_stable]). *)
Definition compose_prompt (form : list (string * string)) (user_story context : string)
  : result string :=
  let prompt := "User Story: " ++ user_story ++ py "\n\nContext/Brain Dump:\n" ++ context in
  bind (answers_loop (S (List.length form)) form 0 "") (fun answers_text =>
  Ok (if String.eqb answers_text "" then prompt
      else prompt ++ answers_header ++ answers_text)).

(** *** Notions used to state the properties *)

(** A service that answers every call with the same text, and one whose
    every call raises. *)
Definition replying (text : string) : GenerativeModel :=
  {| respond := fun _ _ => Replies text |}.

Definition failing (e : exn) : GenerativeModel :=
  {| respond := fun _ _ => Fails e |}.

(** What [get_ai_analysis] returns once the capability has replied [text]:
    the decoded object, or the error dict built from the decoder's exception. *)
Definition interpret (text : string) : value :=
  match Json.loads (clean_response text) with
  | Ok v => v
  | Raise e => error_dict ("An error occurred: " ++ str_exn e)
  end.

(** The number of backticks a text starts with. *)
Fixpoint ticks (s : string) : nat :=
  match s with
  | String c s' => if Ascii.eqb c TICK then S (ticks s') else 0
  | EmptyString => 0
  end.

(** The questions numbered [i] to [i + k - 1] of a form that come with a
    non-empty answer, each with its number, its text and its answer. *)
Definition answered_from (form : list (string * string)) (i k : nat)
  : list (nat * string * string) :=
  flat_map
    (fun j =>
       match dict_get (question_key j) form, dict_get (answer_key j) form with
       | Some q, Some a => if String.eqb a "" then [] else [(j, q, a)]
       | _, _ => []
       end)
    (seq i k).

Definition blocks_text (blocks : list (nat * string * string)) : string :=
  String.concat "" (map (fun b => answer_block (snd (fst b)) (snd b)) blocks).

(** The answers section of a prompt: nothing when no question was answered,
    else the header and one block per answered question. *)
Definition answers_section (blocks : list (nat * string * string)) : string :=
  match blocks with
  | [] => ""
  | _ :: _ => answers_header ++ blocks_text blocks
  end.

(** The first part of every prompt. *)
Definition prompt_head (user_story context : string) : string :=
  "User Story: " ++ user_story ++ py "\n\nContext/Brain Dump:\n" ++ context.



(** The context of a page after a POST. *)
Definition page (user_story context preview_html : string) (questions : value)
  : response :=
  render_template_string HTML_TEMPLATE
    [("user_story", VStr user_story); ("context", VStr context);
     ("preview_html", VStr preview_html);
     ("clarifying_questions", questions); ("api_key_error", VNone)].

(** The page shown when no credential was found at start. *)
Definition configuration_error_page : response :=
  render_template_string HTML_TEMPLATE
    [("api_key_error", VStr "ERROR: GOOGLE_API_KEY is not set.")].

Section Handler.

(** [markdown.markdown] on a [str], from the Markdown package. *)
Variable markdown : string -> string.

(** [str(v)] for the objects that are not text, integers, booleans or
    [None]: Python's display of floats, lists and dicts. *)
Variable display : value -> string.

(** [markdown.markdown(v)]: the converter starts with [v.strip()]. *)
Definition markdown_markdown (v : value) : result string :=
  match v with
  | VStr s => Ok (markdown s)
  | _ => Raise (AttributeError ("'" ++ type_name v ++ "' object has no attribute 'strip'"))
  end.

(** [str(v)], as an f-string formats a field. *)
Definition str_value (v : value) : string :=
  match v with
  | VStr s => s
  | VNone => "None"
  | VBool true => "True"
  | VBool false => "False"
  | VInt z => str_Z z
  | _ => display v
  end.

Definition initial_view_data : dict value :=
  [("user_story", VStr ""); ("context", VStr ""); ("preview_html", VStr "");
   ("clarifying_questions", VList []); ("api_key_error", VNone)].

(** The branch on the analysis, from [if "error" in analysis] on. *)
Definition present_analysis (analysis : value) (view_data : dict value)
  : result (dict value) :=
  bind (py_in "error" analysis) (fun has_error =>
  if (has_error : bool) then
    bind (py_getitem analysis "error") (fun err =>
    Ok (dict_set "preview_html"
          (VStr ("<p class='error'>Error: " ++ str_value err ++ "</p>")) view_data))
  else
    bind (py_get analysis "ticket_draft" (VStr "")) (fun ticket_draft_md =>
    bind (markdown_markdown ticket_draft_md) (fun html =>
    let view_data := dict_set "preview_html" (VStr html) view_data in
    bind (py_get analysis "clarifying_questions" (VList [])) (fun questions =>
    Ok (dict_set "clarifying_questions" questions view_data))))).

Definition index (model : option GenerativeModel) (req : request) : M response :=
  match model with
  | None =>
      ret (render_template_string HTML_TEMPLATE
             [("api_key_error", VStr "ERROR: GOOGLE_API_KEY is not set.")])
  | Some _ =>
      let view_data := initial_view_data in
      view_data <-
        match method req with
        | POST =>
            user_story <- lift (form_getitem (form req) "user_story") ;;
            context <- lift (form_getitem (form req) "context") ;;
            prompt <- lift (compose_prompt (form req) user_story context) ;;
            analysis <- get_ai_analysis model prompt ;;
            view_data <- lift (present_analysis analysis view_data) ;;
            let view_data := dict_set "user_story" (VStr user_story) view_data in
            let view_data := dict_set "context" (VStr context) view_data in
            ret view_data
        | GET => ret view_data
        end ;;
      ret (render_template_string HTML_TEMPLATE view_data)
  end.

(** The process: each request is handled with the one [model] set at
    start; a handler that raises ends that request only. *)
Fixpoint serve (model : option GenerativeModel) (requests : list request)
    (h : history) : list (result response) * history :=
  match requests with
  | [] => ([], h)
  | req :: rest =>
      let (r, h1) := index model req h in
      let (rs, h2) := serve model rest h1 in
      (r :: rs, h2)
  end.

Definition run (environ : dict string) (service : GenerativeModel)
    (requests : list request) : list (result response) * history :=
  serve (init_model environ service) requests [].

End Handler.

End App.

(* ================================================================== *)
(** ** Sample forms and replies *)
(* ================================================================== *)

Module Scenarios.

Import PyStr Py App.

(** The form of Scenario A. *)
Definition scenario_A_form : list (string * string) :=
  [("user_story", "As a user, I want password reset"); ("context", "")].

Definition scenario_A_prompt : string :=
  py "User Story: As a user, I want password reset\n\nContext/Brain Dump:\n".

Definition two_questions_form : list (string * string) :=
  [("user_story", "S"); ("context", "C");
   ("question_0", "Q0?"); ("answer_0", "");
   ("question_1", "Q1?"); ("answer_1", "A1")].

Definition unanswered_form : list (string * string) :=
  [("user_story", "S"); ("context", "C");
   ("question_0", "Q0?"); ("answer_0", "");
   ("question_1", "Q1?"); ("answer_1", "")].

Definition scenario_B_body : string :=
  py "{\qticket_draft\q:\qx\q,\qclarifying_questions\q:[\qQ1?\q],\qopen_questions\q:[]}".

Definition scenario_B_reply : string :=
  fence ++ "json" ++ String LF (scenario_B_body ++ String LF fence).

Definition scenario_B_analysis : value :=
  VDict [("ticket_draft", VStr "x");
         ("clarifying_questions", VList [VStr "Q1?"]);
         ("open_questions", VList [])].

Definition error_and_draft_reply : string :=
  py "{\qticket_draft\q: \qx\q, \qerror\q: \qquota exceeded\q}".

Definition fence_in_draft_reply : string :=
  py "{\qticket_draft\q: \qrun ```json{}``` now\q, \qclarifying_questions\q: [], \qopen_questions\q: []}".

End Scenarios.

(* ================================================================== *)
(** ** Facts about text *)
(* ================================================================== *)

Module PyStrFacts.

Import PyStr.

Lemma append_empty_r (s : string) : s ++ "" = s.
Proof. induction s as [|c s IH]; simpl; [reflexivity | now rewrite IH]. Qed.

Lemma append_assoc' (a b c : string) : (a ++ b) ++ c = a ++ b ++ c.
Proof. induction a as [|x a IH]; simpl; [reflexivity | now rewrite IH]. Qed.

Lemma length_append' (a b : string) :
  String.length (a ++ b) = String.length a + String.length b.
Proof. induction a as [|x a IH]; simpl; [reflexivity | now rewrite IH]. Qed.

Lemma prefix_append (p r : string) : prefix p (p ++ r) = true.
Proof.
  induction p as [|c p IH]; simpl.
  - now destruct r.
  - destruct (ascii_dec c c); [assumption | contradiction].
Qed.

Lemma prefix_split (p s : string) :
  prefix p s = true -> exists r, s = p ++ r.
Proof.
  revert s; induction p as [|c p IH]; intros s H.
  - now exists s.
  - destruct s as [|d s]; simpl in H; [discriminate |].
    destruct (ascii_dec c d) as [->|]; [| discriminate].
    destruct (IH _ H) as [r ->]. now exists r.
Qed.

Lemma prefix_of_longer (p q s : string) :
  prefix (p ++ q) s = true -> prefix p s = true.
Proof.
  intros H. destruct (prefix_split _ _ H) as [r ->].
  rewrite append_assoc'. apply prefix_append.
Qed.

Lemma drop_append (a b : string) : drop (String.length a) (a ++ b) = b.
Proof. induction a as [|c a IH]; simpl; [now destruct b | assumption]. Qed.

Lemma drop_suffix (k : nat) (s : string) : exists a, s = a ++ drop k s.
Proof.
  revert s; induction k as [|k IH]; intros s.
  - exists "". now destruct s.
  - destruct s as [|c s]; [now exists "" |].
    destruct (IH s) as [a Ha]. exists (String c a). simpl. now rewrite <- Ha.
Qed.

Lemma drop_length_le (k : nat) (s : string) :
  String.length (drop k s) <= String.length s.
Proof.
  revert s; induction k as [|k IH]; intros [|c s]; simpl; auto.
Qed.

(** *** Occurrences *)

Lemma occurs_here (sub r : string) : occurs sub (sub ++ r).
Proof. now exists "", r. Qed.

Lemma occurs_later (sub : string) (c : ascii) (s : string) :
  occurs sub s -> occurs sub (String c s).
Proof. intros (a & b & ->). now exists (String c a), b. Qed.

Lemma occurs_inside (sub a s b : string) :
  occurs sub s -> occurs sub (a ++ s ++ b).
Proof.
  intros (x & y & ->). exists (a ++ x), (y ++ b).
  now rewrite !append_assoc'.
Qed.

Lemma occurs_longer (p q s : string) : occurs (p ++ q) s -> occurs p s.
Proof.
  intros (a & b & ->). exists a, (q ++ b). now rewrite append_assoc'.
Qed.

Lemma contains_prefix (sub s : string) :
  prefix sub s = true -> contains sub s = true.
Proof. intros H. destruct s; cbn [contains]; now rewrite H. Qed.

Lemma contains_occurs (sub s : string) :
  contains sub s = true <-> occurs sub s.
Proof.
  split.
  - induction s as [|c s IH]; cbn [contains]; intros H.
    + rewrite orb_false_r in H. destruct (prefix_split _ _ H) as [r E].
      rewrite E. apply occurs_here.
    + apply orb_true_iff in H as [H | H].
      * destruct (prefix_split _ _ H) as [r ->]. apply occurs_here.
      * apply occurs_later; auto.
  - intros (a & b & ->). induction a as [|c a IH].
    + change ("" ++ sub ++ b) with (sub ++ b).
      apply contains_prefix, prefix_append.
    + change (String c a ++ sub ++ b) with (String c (a ++ sub ++ b)).
      cbn [contains]. rewrite IH. apply orb_true_r.
Qed.

Lemma not_occurs_contains (sub s : string) :
  ~ occurs sub s <-> contains sub s = false.
Proof.
  rewrite <- contains_occurs. destruct (contains sub s); split; congruence.
Qed.

(** *** [str.replace] *)

Lemma replace_from_skip (old new : string) (k : nat) (s : string) :
  replace_from old new k s = replace_from old new 0 (drop k s).
Proof.
  revert k; induction s as [|c s IH]; intros [|k]; simpl; auto.
Qed.

(** Replacing a text that does not occur changes nothing. *)
Lemma replace_from_absent (old new s : string) :
  contains old s = false -> replace_from old new 0 s = s.
Proof.
  induction s as [|c s IH]; intros H; [reflexivity |].
  cbn [contains] in H. apply orb_false_iff in H as [Hp Hc].
  cbn [replace_from]. rewrite Hp, IH; auto.
Qed.

Lemma replace_absent (old new s : string) :
  old <> "" -> ~ occurs old s -> replace old new s = s.
Proof.
  intros Hold H. destruct old as [|c old]; [congruence |].
  apply replace_from_absent. now apply not_occurs_contains.
Qed.

(** *** Reversal and [str.strip] *)

Lemma rev_onto_append (s acc : string) : rev_onto s acc = rev s ++ acc.
Proof.
  unfold rev. revert acc; induction s as [|c s IH]; intros acc; simpl.
  - reflexivity.
  - rewrite (IH (String c acc)), (IH (String c "")), append_assoc'. reflexivity.
Qed.

Lemma rev_append (a b : string) : rev (a ++ b) = rev b ++ rev a.
Proof.
  induction a as [|c a IH].
  - simpl. now rewrite append_empty_r.
  - simpl "++". unfold rev at 1 3. simpl.
    rewrite !rev_onto_append, IH, append_assoc'. reflexivity.
Qed.

Lemma rev_involutive (s : string) : rev (rev s) = s.
Proof.
  induction s as [|c s IH]; [reflexivity |].
  unfold rev at 2. simpl. rewrite rev_onto_append, rev_append, IH. reflexivity.
Qed.

Lemma drop_leading_suffix (seqs : list string) (fuel : nat) (s : string) :
  exists a, s = a ++ drop_leading seqs fuel s.
Proof.
  revert s; induction fuel as [|f IH]; intros s; simpl.
  - now exists "".
  - destruct (find _ seqs) as [w|]; [| now exists ""].
    destruct (drop_suffix (String.length w) s) as [a Ha].
    destruct (IH (drop (String.length w) s)) as [b Hb].
    exists (a ++ b). rewrite append_assoc', <- Hb. exact Ha.
Qed.

(** The stripped text is a piece of the text. *)
Lemma strip_infix (s : string) : exists a b, s = a ++ strip s ++ b.
Proof.
  unfold strip, rstrip, lstrip.
  destruct (drop_leading_suffix whitespace (String.length s) s) as [a Ha].
  set (t := drop_leading whitespace (String.length s) s) in *.
  destruct (drop_leading_suffix (map rev whitespace) (String.length t) (rev t))
    as [b Hb].
  set (u := drop_leading (map rev whitespace) (String.length t) (rev t)) in *.
  exists a, (rev b).
  rewrite <- rev_append, <- Hb, rev_involutive. exact Ha.
Qed.

Lemma strip_keeps_absent (sub s : string) :
  ~ occurs sub s -> ~ occurs sub (strip s).
Proof.
  intros H Hs. apply H. destruct (strip_infix s) as (a & b & E).
  rewrite E. now apply occurs_inside.
Qed.

End PyStrFacts.


(* ================================================================== *)
(** ** Facts about fences *)
(* ================================================================== *)

Module FenceFacts.

Import PyStr Py App PyStrFacts.

Lemma prefix_cons (a b : ascii) (p s : string) :
  prefix (String a p) (String b s) = Ascii.eqb a b && prefix p s.
Proof.
  simpl. destruct (ascii_dec a b) as [->|N].
  - now rewrite Ascii.eqb_refl.
  - apply Ascii.eqb_neq in N. now rewrite N.
Qed.

Lemma prefix_empty (s : string) : prefix "" s = true.
Proof. now destruct s. Qed.

Lemma prefix_fence_ticks (s : string) : prefix fence s = Nat.leb 3 (ticks s).
Proof.
  unfold fence.
  destruct s as [|c1 [|c2 [|c3 s]]]; cbn [ticks];
    rewrite ?prefix_cons, ?prefix_empty;
    rewrite ?(Ascii.eqb_sym TICK);
    repeat match goal with
           | |- context [Ascii.eqb ?c TICK] => destruct (Ascii.eqb c TICK)
           end; reflexivity.
Qed.

Lemma ticks_append_other (u : string) (c : ascii) (y y' : string) :
  Ascii.eqb c TICK = false ->
  ticks (u ++ String c y) = ticks (u ++ String c y').
Proof.
  intros Hc. induction u as [|d u IH]; simpl.
  - now rewrite Hc.
  - now rewrite IH.
Qed.

Lemma replace_fence_cons (c : ascii) (s : string) :
  replace_from fence "" 0 (String c s)
  = if prefix fence (String c s) then replace_from fence "" 0 (drop 2 s)
    else String c (replace_from fence "" 0 s).
Proof.
  cbn [replace_from]. destruct (prefix fence (String c s)); [| reflexivity].
  change (String.length fence - 1) with 2. now rewrite replace_from_skip.
Qed.

Lemma ticks_fence_drop (c : ascii) (s : string) :
  prefix fence (String c s) = true ->
  ticks (String c s) = 3 + ticks (drop 2 s).
Proof.
  unfold fence. destruct s as [|c2 [|c3 s]];
    rewrite ?prefix_cons, ?prefix_empty; cbn [ticks drop];
    rewrite ?(Ascii.eqb_sym TICK);
    repeat match goal with
           | |- context [Ascii.eqb ?c TICK] => destruct (Ascii.eqb c TICK)
           end; simpl; intros; try discriminate; reflexivity.
Qed.

Lemma replace_fence_clean_upto (n : nat) :
  forall s, String.length s <= n ->
    contains fence (replace_from fence "" 0 s) = false
    /\ ticks (replace_from fence "" 0 s) <= ticks s.
Proof.
  induction n as [|n IH]; intros [|c s] Hlen; simpl in Hlen;
    try (split; [reflexivity | apply Nat.le_refl]); [lia |].
  rewrite replace_fence_cons.
  destruct (prefix fence (String c s)) eqn:Hp.
  - destruct (IH (drop 2 s)) as [Hc Ht].
    { pose proof (drop_length_le 2 s). lia. }
    split; [exact Hc |]. rewrite (ticks_fence_drop _ _ Hp). lia.
  - destruct (IH s) as [Hc Ht]; [lia |].
    rewrite prefix_fence_ticks in Hp. apply Nat.leb_gt in Hp.
    assert (Hle : ticks (String c (replace_from fence "" 0 s)) <= ticks (String c s)).
    { cbn [ticks]. destruct (Ascii.eqb c TICK); lia. }
    split; [| exact Hle].
    cbn [contains]. rewrite Hc, orb_false_r, prefix_fence_ticks.
    apply Nat.leb_gt. lia.
Qed.

Lemma remove_fences_clean (t : string) : contains fence (remove_fences t) = false.
Proof.
  unfold remove_fences. unfold replace at 1. 
  change fence with (String TICK (String TICK (String TICK ""))) at 1.
  cbv iota beta.
  apply (replace_fence_clean_upto _ _ (Nat.le_refl _)).
Qed.

Lemma ticks_append_stop (u : string) (c : ascii) (y : string) :
  Ascii.eqb c TICK = false -> ticks (u ++ String c y) = ticks u.
Proof.
  intros Hc. induction u as [|d u IH]; simpl.
  - now rewrite Hc.
  - now rewrite IH.
Qed.

Lemma prefix_fence_before_newline (u y : string) :
  prefix fence (u ++ String LF y) = prefix fence u.
Proof. rewrite !prefix_fence_ticks, ticks_append_stop; reflexivity. Qed.

Lemma no_json_fence_before_closing_fence (s : string) :
  contains fence s = false ->
  contains json_fence (s ++ String LF fence) = false.
Proof.
  induction s as [|c s IH]; intros H; [reflexivity |].
  cbn [contains] in H. apply orb_false_iff in H as [Hp Hc].
  change (String c s ++ String LF fence) with (String c (s ++ String LF fence)).
  cbn [contains]. rewrite (IH Hc), orb_false_r.
  destruct (prefix json_fence (String c (s ++ String LF fence))) eqn:E; [| reflexivity].
  apply (prefix_of_longer fence "json") in E.
  change (String c (s ++ String LF fence)) with (String c s ++ String LF fence) in E.
  rewrite prefix_fence_before_newline in E. congruence.
Qed.

Lemma closing_fence_removed (s : string) :
  contains fence s = false ->
  replace_from fence "" 0 (s ++ String LF fence) = s ++ String LF "".
Proof.
  induction s as [|c s IH]; intros H; [reflexivity |].
  cbn [contains] in H. apply orb_false_iff in H as [Hp Hc].
  change (String c s ++ String LF fence) with (String c (s ++ String LF fence)).
  rewrite replace_fence_cons.
  change (String c (s ++ String LF fence)) with (String c s ++ String LF fence) at 1.
  rewrite prefix_fence_before_newline, Hp, (IH Hc). reflexivity.
Qed.

Lemma lstrip_ticked (s : string) : lstrip (String TICK s) = String TICK s.
Proof. reflexivity. Qed.

Lemma rstrip_ticked (s : string) :
  rstrip (s ++ String TICK "") = s ++ String TICK "".
Proof.
  unfold rstrip. rewrite rev_append.
  change (rev (String TICK "")) with (String TICK "").
  change (String TICK "" ++ rev s) with (String TICK (rev s)).
  rewrite length_append'. rewrite Nat.add_comm. cbn [String.length Nat.add].
  replace (drop_leading (map rev whitespace) (S (String.length s)) (String TICK (rev s)))
    with (String TICK (rev s)) by reflexivity.
  change (String TICK (rev s)) with (String TICK "" ++ rev s).
  rewrite rev_append, rev_involutive. reflexivity.
Qed.

Lemma strip_ticked (s : string) :
  strip (String TICK (s ++ String TICK "")) = String TICK (s ++ String TICK "").
Proof.
  unfold strip. rewrite lstrip_ticked.
  change (String TICK (s ++ String TICK "")) with (String TICK s ++ String TICK "").
  apply rstrip_ticked.
Qed.

(** A reply fenced with no tag or with the tag [json], whose body holds no
    fence, is cleaned to its body between the two line feeds. *)
Lemma clean_fenced (tag body : string) :
  tag = "" \/ tag = "json" ->
  contains fence body = false ->
  clean_response (fence ++ tag ++ String LF (body ++ String LF fence))
  = String LF (body ++ String LF "").
Proof.
  intros Htag Hbody.
  assert (Hstrip : strip (fence ++ tag ++ String LF (body ++ String LF fence))
                   = fence ++ tag ++ String LF (body ++ String LF fence)).
  { assert (E : fence ++ tag ++ String LF (body ++ String LF fence)
                = String TICK
                    ((String TICK (String TICK
                        (tag ++ String LF (body ++ String LF (String TICK (String TICK ""))))))
                     ++ String TICK "")).
    { unfold fence. repeat (rewrite append_assoc' || cbn [append]). reflexivity. }
    rewrite E. apply strip_ticked. }
  unfold clean_response. rewrite Hstrip. unfold remove_fences.
  assert (Hj : contains json_fence (String LF body ++ String LF fence) = false).
  { apply no_json_fence_before_closing_fence. cbn [contains].
    rewrite Hbody. reflexivity. }
  assert (Hf : replace_from fence "" 0 (String LF body ++ String LF fence)
               = String LF body ++ String LF "").
  { apply closing_fence_removed. cbn [contains]. rewrite Hbody. reflexivity. }
  destruct Htag as [-> | ->].
  - change (fence ++ "" ++ String LF (body ++ String LF fence))
      with (String TICK (String TICK (String TICK (String LF body ++ String LF fence)))).
    unfold replace at 2. change json_fence with (String TICK (String TICK (String TICK "json"))) at 1.
    cbv iota beta.
    rewrite replace_from_absent.
    + exact Hf.
    + cbn [contains]. rewrite Hj. reflexivity.
  - change (replace json_fence "" (fence ++ "json" ++ String LF (body ++ String LF fence)))
      with (replace_from json_fence "" 0 (String LF body ++ String LF fence)).
    rewrite (replace_from_absent _ _ _ Hj). exact Hf.
Qed.

End FenceFacts.

(* ================================================================== *)
(** ** Facts about the prompt composer *)
(* ================================================================== *)

Module ComposerFacts.

Import PyStr Py App PyStrFacts.

Lemma str_nat_inj (i j : nat) : str_nat i = str_nat j -> i = j.
Proof.
  unfold str_nat. intros H.
  apply Unsigned.to_uint_inj.
  assert (E : Some (Nat.to_uint i) = Some (Nat.to_uint j)).
  { rewrite <- (NilEmpty.usu (Nat.to_uint i)), <- (NilEmpty.usu (Nat.to_uint j)).
    now rewrite H. }
  now inversion E.
Qed.

Lemma append_inj_l (p a b : string) : p ++ a = p ++ b -> a = b.
Proof. induction p as [|c p IH]; simpl; intros H; [assumption | inversion H; auto]. Qed.

Lemma question_key_inj (i j : nat) : question_key i = question_key j -> i = j.
Proof. intros H. apply str_nat_inj, (append_inj_l "question_"), H. Qed.

Lemma dict_mem_in {A : Type} (k : string) (d : dict A) :
  dict_mem k d = true -> In k (map fst d).
Proof.
  unfold dict_mem. induction d as [|[k' v] d IH]; simpl; [discriminate |].
  destruct (String.eqb_spec k' k) as [->|N]; [now left | right; auto].
Qed.

Lemma dict_mem_get {A : Type} (k : string) (d : dict A) :
  dict_mem k d = true <-> exists v, dict_get k d = Some v.
Proof.
  unfold dict_mem. destruct (dict_get k d) as [v|]; split; intros H;
    try discriminate; eauto. now destruct H.
Qed.

Lemma dict_mem_absent {A : Type} (k : string) (d : dict A) :
  dict_mem k d = false <-> dict_get k d = None.
Proof.
  unfold dict_mem. destruct (dict_get k d) as [v|]; split; congruence.
Qed.

Lemma form_getitem_some (form : list (string * string)) (k v : string) :
  dict_get k form = Some v -> form_getitem form k = Ok v.
Proof. unfold form_getitem. now intros ->. Qed.

Lemma form_getitem_none (form : list (string * string)) (k : string) :
  dict_get k form = None -> form_getitem form k = Raise (BadRequestKeyError k).
Proof. unfold form_getitem. now intros ->. Qed.

(** A form has at least as many fields as it has numbered questions. *)
Lemma questions_bounded (form : list (string * string)) (n : nat) :
  (forall i, i < n -> dict_mem (question_key i) form = true) ->
  n <= List.length form.
Proof.
  intros H.
  assert (L : List.length (map question_key (seq 0 n)) <= List.length (map fst form)).
  2: { now rewrite !length_map, length_seq in L. }
  apply NoDup_incl_length.
  - apply Finite.Injective_map_NoDup; [| apply seq_NoDup].
    intros i j. apply question_key_inj.
  - intros k Hk. apply in_map_iff in Hk as (i & <- & Hi).
    apply in_seq in Hi. apply dict_mem_in, H. lia.
Qed.

Lemma blocks_text_app (a b : list (nat * string * string)) :
  blocks_text (a ++ b) = blocks_text a ++ blocks_text b.
Proof.
  unfold blocks_text. induction a as [|x a IH]; [reflexivity |].
  change ((x :: a) ++ b)%list with (x :: (a ++ b)%list).
  cbn [map]. 
  assert (C : forall y l, String.concat "" (y :: l) = y ++ String.concat "" l).
  { intros y [|z l]; cbn [String.concat]; [now rewrite append_empty_r | reflexivity]. }
  rewrite !C, IH, append_assoc'. reflexivity.
Qed.

Lemma answered_from_step (form : list (string * string)) (i k : nat) :
  answered_from form i (S k)
  = (answered_from form i 1 ++ answered_from form (S i) k)%list.
Proof.
  unfold answered_from. cbn [seq flat_map]. now rewrite app_nil_r.
Qed.

Lemma answered_from_one (form : list (string * string)) (i : nat) (q a : string) :
  dict_get (question_key i) form = Some q ->
  dict_get (answer_key i) form = Some a ->
  answered_from form i 1 = if String.eqb a "" then [] else [(i, q, a)].
Proof.
  intros Eq Ea. unfold answered_from. cbn [seq flat_map].
  rewrite Eq, Ea, app_nil_r. reflexivity.
Qed.

(** The loop folds the answered questions into the text, in order, and
    stops at the first number with no question. *)
Lemma answers_loop_answered (form : list (string * string)) (k : nat) :
  forall fuel i acc,
    (forall j, i <= j < i + k ->
       dict_mem (question_key j) form = true /\ dict_mem (answer_key j) form = true) ->
    dict_mem (question_key (i + k)) form = false ->
    k < fuel ->
    answers_loop fuel form i acc = Ok (acc ++ blocks_text (answered_from form i k)).
Proof.
  induction k as [|k IH]; intros fuel i acc Hq Hstop Hfuel.
  - destruct fuel as [|fuel]; [lia |]. cbn [answers_loop].
    rewrite Nat.add_0_r in Hstop. rewrite Hstop.
    now rewrite append_empty_r.
  - destruct fuel as [|fuel]; [lia |]. cbn [answers_loop].
    destruct (Hq i ltac:(lia)) as [Hqi Hai]. rewrite Hqi.
    apply dict_mem_get in Hqi as [q Eq]. apply dict_mem_get in Hai as [a Ea].
    rewrite (form_getitem_some _ _ _ Eq), (form_getitem_some _ _ _ Ea). cbn [bind].
    rewrite (IH fuel (S i)).
    + rewrite answered_from_step, blocks_text_app, (answered_from_one _ _ _ _ Eq Ea).
      destruct (String.eqb a ""); cbn [blocks_text map String.concat fst snd].
      * reflexivity.
      * now rewrite append_assoc'.
    + intros j Hj. apply Hq. lia.
    + now rewrite <- Nat.add_succ_comm in Hstop.
    + lia.
Qed.

(** A question sent without its answer field makes the loop raise. *)
Lemma answers_loop_absent (form : list (string * string)) (k : nat) :
  forall fuel i acc,
    (forall j, i <= j < i + k ->
       dict_mem (question_key j) form = true /\ dict_mem (answer_key j) form = true) ->
    dict_mem (question_key (i + k)) form = true ->
    dict_mem (answer_key (i + k)) form = false ->
    k < fuel ->
    answers_loop fuel form i acc = Raise (BadRequestKeyError (answer_key (i + k))).
Proof.
  induction k as [|k IH]; intros fuel i acc Hq Hqk Hak Hfuel.
  - destruct fuel as [|fuel]; [lia |]. cbn [answers_loop].
    rewrite Nat.add_0_r in *. rewrite Hqk.
    apply dict_mem_get in Hqk as [q Eq]. apply dict_mem_absent in Hak.
    rewrite (form_getitem_some _ _ _ Eq), (form_getitem_none _ _ Hak). reflexivity.
  - destruct fuel as [|fuel]; [lia |]. cbn [answers_loop].
    destruct (Hq i ltac:(lia)) as [Hqi Hai]. rewrite Hqi.
    apply dict_mem_get in Hqi as [q Eq]. apply dict_mem_get in Hai as [a Ea].
    rewrite (form_getitem_some _ _ _ Eq), (form_getitem_some _ _ _ Ea). cbn [bind].
    rewrite <- Nat.add_succ_comm in *.
    apply IH; auto; try lia. intros j Hj. apply Hq. lia.
Qed.

(** The passes the loop is given are enough: more of them change nothing. *)
Lemma answers_loop_stable (form : list (string * string)) :
  forall fuel fuel' i acc,
    (forall j, j < i -> dict_mem (question_key j) form = true) ->
    List.length form < fuel + i -> List.length form < fuel' + i ->
    answers_loop fuel form i acc = answers_loop fuel' form i acc.
Proof.
  induction fuel as [|fuel IH]; intros fuel' i acc Hq Hf Hf'.
  - pose proof (questions_bounded form i Hq). lia.
  - destruct fuel' as [|fuel'].
    + pose proof (questions_bounded form i Hq). lia.
    + cbn [answers_loop].
      destruct (dict_mem (question_key i) form) eqn:Hi; [| reflexivity].
      destruct (form_getitem form (question_key i)) as [q|e]; [| reflexivity].
      destruct (form_getitem form (answer_key i)) as [a|e]; [| reflexivity].
      cbn [bind]. apply IH; try lia.
      intros j Hj. destruct (Nat.eq_dec j i) as [->|]; [assumption | apply Hq; lia].
Qed.

Lemma blocks_text_empty (blocks : list (nat * string * string)) :
  String.eqb (blocks_text blocks) "" = match blocks with [] => true | _ => false end.
Proof.
  destruct blocks as [|[[i q] a] l]; [reflexivity |].
  unfold blocks_text. cbn [map fst snd].
  destruct (map _ l); reflexivity.
Qed.

End ComposerFacts.

(* ================================================================== *)
(** ** Facts about the interpreter and the handler *)
(* ================================================================== *)

Module InterpreterFacts.

Import PyStr Py App PyStrFacts FenceFacts ComposerFacts.

(** Once the capability has replied, the analysis is the interpretation of
    its text and the call is on record. *)
Lemma get_ai_analysis_replies (m : GenerativeModel) (prompt raw : string) (h : history) :
  respond m h [SYSTEM_PROMPT; prompt] = Replies raw ->
  get_ai_analysis (Some m) prompt h
  = (Ok (interpret raw), (h ++ [[SYSTEM_PROMPT; prompt]])%list).
Proof.
  intros H. unfold get_ai_analysis, try_except, mbind, generate_content, lift, ret, interpret.
  rewrite H. destruct (Json.loads (clean_response raw)); reflexivity.
Qed.

Lemma get_ai_analysis_fails (m : GenerativeModel) (prompt : string) (e : exn) (h : history) :
  respond m h [SYSTEM_PROMPT; prompt] = Fails e ->
  get_ai_analysis (Some m) prompt h
  = (Ok (error_dict ("An error occurred: " ++ str_exn e)),
     (h ++ [[SYSTEM_PROMPT; prompt]])%list).
Proof.
  intros H. unfold get_ai_analysis, try_except, mbind, generate_content, lift, ret.
  rewrite H. reflexivity.
Qed.

Lemma interpret_ok (raw : string) (v : value) :
  Json.loads (clean_response raw) = Ok v -> interpret raw = v.
Proof. unfold interpret. now intros ->. Qed.

(** A POST whose fields are there and whose call was answered: the page is
    made from the interpreted reply. *)
Lemma index_post_replied (markdown : string -> string) (display : value -> string)
    (service : GenerativeModel) (req : request) (h : history)
    (user_story context prompt raw : string) :
  method req = POST ->
  form_getitem (form req) "user_story" = Ok user_story ->
  form_getitem (form req) "context" = Ok context ->
  compose_prompt (form req) user_story context = Ok prompt ->
  respond service h [SYSTEM_PROMPT; prompt] = Replies raw ->
  index markdown display (Some service) req h
  = (bind (present_analysis markdown display (interpret raw) initial_view_data)
       (fun view_data =>
          Ok (render_template_string HTML_TEMPLATE
                (dict_set "context" (VStr context)
                   (dict_set "user_story" (VStr user_story) view_data)))),
     (h ++ [[SYSTEM_PROMPT; prompt]])%list).
Proof.
  intros Hm Hu Hc Hp Hr. unfold index, mbind, lift, ret.
  rewrite Hm, Hu, Hc, Hp, (get_ai_analysis_replies _ _ _ _ Hr).
  destruct (present_analysis markdown display (interpret raw) initial_view_data);
    reflexivity.
Qed.

(** The same POST when the call raised: the error dict is presented. *)
Lemma index_post_failed (markdown : string -> string) (display : value -> string)
    (service : GenerativeModel) (req : request) (h : history)
    (user_story context prompt : string) (e : exn) :
  method req = POST ->
  form_getitem (form req) "user_story" = Ok user_story ->
  form_getitem (form req) "context" = Ok context ->
  compose_prompt (form req) user_story context = Ok prompt ->
  respond service h [SYSTEM_PROMPT; prompt] = Fails e ->
  index markdown display (Some service) req h
  = (Ok (page user_story context
           ("<p class='error'>Error: An error occurred: " ++ str_exn e ++ "</p>")
           (VList [])),
     (h ++ [[SYSTEM_PROMPT; prompt]])%list).
Proof.
  intros Hm Hu Hc Hp Hr. unfold index, mbind, lift, ret.
  rewrite Hm, Hu, Hc, Hp, (get_ai_analysis_fails _ _ _ _ Hr). reflexivity.
Qed.

(** A POST whose fields are there calls the capability once, with the system
    prompt and the composed prompt. *)
Lemma index_post_history (markdown : string -> string) (display : value -> string)
    (service : GenerativeModel) (req : request) (h : history)
    (user_story context prompt : string) :
  method req = POST ->
  form_getitem (form req) "user_story" = Ok user_story ->
  form_getitem (form req) "context" = Ok context ->
  compose_prompt (form req) user_story context = Ok prompt ->
  snd (index markdown display (Some service) req h)
  = (h ++ [[SYSTEM_PROMPT; prompt]])%list.
Proof.
  intros Hm Hu Hc Hp.
  destruct (respond service h [SYSTEM_PROMPT; prompt]) as [raw|e] eqn:Hr.
  - now rewrite (index_post_replied markdown display service req h
                   user_story context prompt raw).
  - now rewrite (index_post_failed markdown display service req h
                   user_story context prompt e).
Qed.

End InterpreterFacts.

(* ================================================================== *)
(** ** The claims *)
(* ================================================================== *)

Module Claims.

Import PyStr Py App Scenarios PyStrFacts FenceFacts ComposerFacts InterpreterFacts.

(** C1 (the code departs from it). A reply that is valid JSON but not an
    object, here the number 42, is not turned into a message: the test for
    an [error] key raises a [TypeError], which leaves the handler. *)
Theorem C1_non_object_reply_escapes_the_handler :
  forall (markdown : string -> string) (display : value -> string) (h : history),
    index markdown display (Some (replying "42"))
      {| method := POST; form := scenario_A_form |} h
    = (Raise (TypeError "argument of type 'int' is not iterable"),
       (h ++ [[SYSTEM_PROMPT; scenario_A_prompt]])%list).
Proof.
  intros markdown display h.
  rewrite (index_post_replied markdown display _ _ h
             "As a user, I want password reset" "" scenario_A_prompt "42");
    reflexivity.
Qed.


(** *** The composer *)

Lemma answered_from_in (form : list (string * string)) (i0 k i : nat) (q a : string) :
  In (i, q, a) (answered_from form i0 k) <->
  (i0 <= i < i0 + k /\ dict_get (question_key i) form = Some q
   /\ dict_get (answer_key i) form = Some a /\ a <> "").
Proof.
  unfold answered_from. rewrite in_flat_map. split.
  - intros (j & Hj & Hin). apply in_seq in Hj.
    destruct (dict_get (question_key j) form) as [q'|] eqn:Eq; [| contradiction].
    destruct (dict_get (answer_key j) form) as [a'|] eqn:Ea; [| contradiction].
    destruct (String.eqb_spec a' "") as [->|Na]; [contradiction |].
    destruct Hin as [Hin | []]. inversion Hin; subst. auto.
  - intros (Hi & Eq & Ea & Na). exists i. split; [apply in_seq; lia |].
    rewrite Eq, Ea. destruct (String.eqb_spec a "") as [->|_]; [congruence |].
    now left.
Qed.

Lemma answered_from_all_empty (form : list (string * string)) (k : nat) :
  forall i,
    (forall j, i <= j < i + k -> dict_get (answer_key j) form = Some "") ->
    answered_from form i k = [].
Proof.
  intros i H. destruct (answered_from form i k) as [|[[j q] a] l] eqn:E; [reflexivity |].
  assert (Hin : In (j, q, a) (answered_from form i k)) by (rewrite E; now left).
  apply answered_from_in in Hin as (Hj & _ & Ea & Na).
  rewrite (H j Hj) in Ea. congruence.
Qed.

Lemma compose_prompt_answered (form : list (string * string))
    (user_story context : string) (n : nat) :
  (forall i, i < n ->
     dict_mem (question_key i) form = true /\ dict_mem (answer_key i) form = true) ->
  dict_mem (question_key n) form = false ->
  compose_prompt form user_story context
  = Ok (prompt_head user_story context ++ answers_section (answered_from form 0 n)).
Proof.
  intros Hq Hstop. unfold compose_prompt.
  assert (Hn : n <= List.length form).
  { apply questions_bounded. intros i Hi. now apply Hq. }
  rewrite (answers_loop_answered form n (S (List.length form)) 0 "");
    [| intros j Hj; apply Hq; lia | exact Hstop | lia].
  cbn [bind]. change ("" ++ blocks_text (answered_from form 0 n))
    with (blocks_text (answered_from form 0 n)).
  rewrite blocks_text_empty. unfold answers_section, prompt_head.
  destruct (answered_from form 0 n).
  - now rewrite append_empty_r.
  - reflexivity.
Qed.

Lemma compose_prompt_absent_answer (form : list (string * string))
    (user_story context : string) (k : nat) :
  (forall i, i < k ->
     dict_mem (question_key i) form = true /\ dict_mem (answer_key i) form = true) ->
  dict_mem (question_key k) form = true ->
  dict_mem (answer_key k) form = false ->
  compose_prompt form user_story context = Raise (BadRequestKeyError (answer_key k)).
Proof.
  intros Hq Hk Ha. unfold compose_prompt.
  assert (Hn : S k <= List.length form).
  { apply questions_bounded. intros i Hi.
    destruct (Nat.eq_dec i k) as [->|]; [assumption | apply Hq; lia]. }
  rewrite (answers_loop_absent form k (S (List.length form)) 0 "");
    [reflexivity | intros j Hj; apply Hq; lia | exact Hk | exact Ha | lia].
Qed.

(** C2 (amended). For a form whose questions are numbered 0 to [n - 1]: when
    each of them comes with an answer field, the prompt is the story and the
    context followed by the answers section, whose blocks are exactly the
    questions with a non-empty answer, in order; a question whose answer
    field is missing makes the composer raise instead. *)
Theorem C2_answered_questions_make_the_answers_section :
  forall (form : list (string * string)) (user_story context : string) (n : nat),
    (forall i, i < n -> dict_mem (question_key i) form = true) ->
    dict_mem (question_key n) form = false ->
    ((forall i, i < n -> dict_mem (answer_key i) form = true) ->
       compose_prompt form user_story context
       = Ok (prompt_head user_story context
               ++ answers_section (answered_from form 0 n))
       /\ forall i q a,
            In (i, q, a) (answered_from form 0 n) <->
            (i < n /\ dict_get (question_key i) form = Some q
             /\ dict_get (answer_key i) form = Some a /\ a <> ""))
    /\ (forall k, k < n ->
          (forall i, i < k -> dict_mem (answer_key i) form = true) ->
          dict_mem (answer_key k) form = false ->
          compose_prompt form user_story context
          = Raise (BadRequestKeyError (answer_key k))).
Proof.
  intros form user_story context n Hq Hstop. split.
  - intros Ha. split.
    + apply compose_prompt_answered; auto.
    + intros i q a. rewrite answered_from_in. intuition lia.
  - intros k Hk Ha Hak. apply compose_prompt_absent_answer; auto.
    intros i Hi. split; [apply Hq; lia | now apply Ha].
Qed.

Lemma C2_witness :
  compose_prompt two_questions_form "S" "C"
  = Ok (prompt_head "S" "C" ++ answers_section [(1, "Q1?", "A1")]).
Proof.
  apply (C2_answered_questions_make_the_answers_section two_questions_form "S" "C" 2).
  - intros [|[|i]] Hi; [reflexivity | reflexivity | lia].
  - reflexivity.
  - intros [|[|i]] Hi; [reflexivity | reflexivity | lia].
Defined.

(** C2 as stated fails: a question sent without its answer field is not
    dropped, the composer raises. *)
Lemma C2_counterexample_absent_answer :
  compose_prompt [("user_story", "S"); ("context", "C"); ("question_0", "Q0?")] "S" "C"
  = Raise (BadRequestKeyError "answer_0")
  /\ compose_prompt [("user_story", "S"); ("context", "C"); ("question_0", "Q0?")] "S" "C"
     <> Ok (prompt_head "S" "C").
Proof. split; [reflexivity | discriminate]. Qed.

(** C6 (amended). When every prior question comes with an empty answer, the
    prompt is the one composed with no prior question: the story and the
    context, no header, no block. *)
Theorem C6_all_empty_answers_leave_the_prompt_unchanged :
  forall (form form' : list (string * string)) (user_story context : string) (n : nat),
    (forall i, i < n ->
       dict_mem (question_key i) form = true
       /\ dict_get (answer_key i) form = Some "") ->
    dict_mem (question_key n) form = false ->
    dict_mem (question_key 0) form' = false ->
    compose_prompt form user_story context = compose_prompt form' user_story context
    /\ compose_prompt form user_story context = Ok (prompt_head user_story context).
Proof.
  intros form form' user_story context n H Hstop Hnone.
  assert (E : compose_prompt form user_story context = Ok (prompt_head user_story context)).
  { rewrite (compose_prompt_answered form user_story context n).
    - rewrite answered_from_all_empty.
      + cbn [answers_section]. now rewrite append_empty_r.
      + intros j Hj. apply H. lia.
    - intros i Hi. destruct (H i Hi) as [Hq Ha]. split; [assumption |].
      apply dict_mem_get. eauto.
    - exact Hstop. }
  split; [| exact E]. rewrite E.
  rewrite (compose_prompt_answered form' user_story context 0).
  - cbn [answered_from seq flat_map answers_section]. now rewrite append_empty_r.
  - intros i Hi. lia.
  - exact Hnone.
Qed.

Lemma C6_witness :
  compose_prompt unanswered_form "S" "C"
  = compose_prompt [("user_story", "S"); ("context", "C")] "S" "C"
  /\ compose_prompt unanswered_form "S" "C" = Ok (prompt_head "S" "C").
Proof.
  apply (C6_all_empty_answers_leave_the_prompt_unchanged
           unanswered_form [("user_story", "S"); ("context", "C")] "S" "C" 2).
  - intros [|[|i]] Hi; [split; reflexivity | split; reflexivity | lia].
  - reflexivity.
  - reflexivity.
Defined.

(** C6 as stated fails for absent answers: with a question and no answer
    field the composer raises, with no question it gives the prompt. *)
Lemma C6_counterexample_absent_answers :
  compose_prompt [("user_story", "S"); ("context", "C"); ("question_0", "Why?")] "S" "C"
  <> compose_prompt [("user_story", "S"); ("context", "C")] "S" "C".
Proof. discriminate. Qed.

(** C7. Scenario A: the composed prompt is exactly the story and the empty
    context under their two titles, and that is what the handler sends. *)
Theorem C7_scenario_A_prompt :
  compose_prompt scenario_A_form "As a user, I want password reset" ""
  = Ok scenario_A_prompt
  /\ forall (markdown : string -> string) (display : value -> string)
       (service : GenerativeModel) (h : history),
       snd (index markdown display (Some service)
              {| method := POST; form := scenario_A_form |} h)
       = (h ++ [[SYSTEM_PROMPT; scenario_A_prompt]])%list.
Proof.
  split; [reflexivity |].
  intros markdown display service h.
  now apply (index_post_history markdown display service _ h
               "As a user, I want password reset" "" scenario_A_prompt).
Qed.


(** *** The interpreter *)

(** C3. With no credential in the environment at start, every request of
    the process, whatever its method and form, gets the configuration error
    page, and the capability is never called. *)
Theorem C3_absent_credential_fails_every_request :
  forall (markdown : string -> string) (display : value -> string)
    (environ : dict string) (service : GenerativeModel) (requests : list request),
    dict_get "GOOGLE_API_KEY" environ = None ->
    run markdown display environ service requests
    = (map (fun _ => Ok configuration_error_page) requests, []).
Proof.
  intros markdown display environ service requests H.
  unfold run, init_model, environ_getitem. rewrite H.
  generalize (@nil (list string)) as h.
  induction requests as [|req rest IH]; intros h; [reflexivity |].
  cbn [serve map]. cbn [index ret]. rewrite IH. reflexivity.
Qed.

Lemma C3_witness :
  run (fun s => s) (fun _ => "") [("PATH", "/usr/bin")] (replying "{}")
    [ {| method := GET; form := [] |};
      {| method := POST; form := two_questions_form |} ]
  = ([Ok configuration_error_page; Ok configuration_error_page], []).
Proof.
  apply (C3_absent_credential_fails_every_request
           (fun s => s) (fun _ => "") [("PATH", "/usr/bin")] (replying "{}")).
  reflexivity.
Defined.

(** C4 (amended). A reply made of an opening fence with no tag or with the
    tag [json], a line feed, a body holding no fence, a line feed and a
    closing fence is stripped of both fences, and what the body between its
    line feeds decodes to is the analysis, with no error. *)
Theorem C4_fenced_reply_is_unwrapped_and_parsed :
  forall (service : GenerativeModel) (prompt : string) (h : history)
    (tag body : string) (v : value),
    tag = "" \/ tag = "json" ->
    ~ occurs fence body ->
    Json.loads (String LF (body ++ String LF "")) = Ok v ->
    respond service h [SYSTEM_PROMPT; prompt]
    = Replies (fence ++ tag ++ String LF (body ++ String LF fence)) ->
    clean_response (fence ++ tag ++ String LF (body ++ String LF fence))
    = String LF (body ++ String LF "")
    /\ get_ai_analysis (Some service) prompt h
       = (Ok v, (h ++ [[SYSTEM_PROMPT; prompt]])%list).
Proof.
  intros service prompt h tag body v Htag Hbody Hv Hr.
  assert (E : clean_response (fence ++ tag ++ String LF (body ++ String LF fence))
              = String LF (body ++ String LF "")).
  { apply clean_fenced; [assumption | now apply not_occurs_contains]. }
  split; [exact E |].
  rewrite (get_ai_analysis_replies _ _ _ _ Hr). unfold interpret.
  now rewrite E, Hv.
Qed.

Lemma C4_witness :
  clean_response scenario_B_reply = String LF (scenario_B_body ++ String LF "")
  /\ get_ai_analysis (Some (replying scenario_B_reply)) "p" []
     = (Ok scenario_B_analysis, [[SYSTEM_PROMPT; "p"]]).
Proof.
  apply (C4_fenced_reply_is_unwrapped_and_parsed
           (replying scenario_B_reply) "p" [] "json" scenario_B_body scenario_B_analysis).
  - right. reflexivity.
  - apply not_occurs_contains. reflexivity.
  - reflexivity.
  - reflexivity.
Defined.

(** C4 as stated fails for a language tag other than [json]: the tag stays
    in front of the body and the decoder rejects the text. *)
Lemma C4_counterexample_other_tag :
  fst (get_ai_analysis
         (Some (replying (fence ++ "javascript" ++ String LF (scenario_B_body ++ String LF fence))))
         "p" [])
  = Ok (error_dict "An error occurred: Expecting value: line 1 column 1 (char 0)").
Proof. reflexivity. Qed.




(** C8. On a reply that holds no fence the two [replace] calls change
    nothing, so the text decodes the same with and without them; the
    cleaned reply is the reply with its surrounding whitespace trimmed. *)
Theorem C8_fence_free_reply_parses_the_same :
  forall raw : string,
    ~ occurs fence raw ->
    remove_fences raw = raw
    /\ Json.loads (remove_fences raw) = Json.loads raw
    /\ clean_response raw = strip raw
    /\ Json.loads (clean_response raw) = Json.loads (strip raw).
Proof.
  assert (Hid : forall t, ~ occurs fence t -> remove_fences t = t).
  { intros t Ht. unfold remove_fences.
    rewrite (replace_absent json_fence "" t).
    - apply replace_absent; [discriminate | assumption].
    - discriminate.
    - intros Hj. apply Ht. now apply (occurs_longer fence "json"). }
  intros raw Hraw.
  assert (Hs : clean_response raw = strip raw).
  { unfold clean_response. apply Hid. now apply strip_keeps_absent. }
  rewrite (Hid raw Hraw), Hs. auto.
Qed.

Lemma C8_witness :
  remove_fences scenario_B_body = scenario_B_body
  /\ Json.loads (remove_fences scenario_B_body) = Json.loads scenario_B_body
  /\ clean_response scenario_B_body = strip scenario_B_body
  /\ Json.loads (clean_response scenario_B_body) = Json.loads (strip scenario_B_body).
Proof.
  apply (C8_fence_free_reply_parses_the_same scenario_B_body).
  apply not_occurs_contains. reflexivity.
Defined.

(** C9. A reply that decodes to a JSON object with an [error] key is shown
    as an error made from that key's value, in place of a draft, whatever
    else the object holds. *)
Theorem C9_error_key_is_reported_in_band :
  forall (markdown : string -> string) (display : value -> string)
    (service : GenerativeModel) (req : request) (h : history)
    (user_story context prompt raw : string) (d : dict value) (err : value),
    method req = POST ->
    form_getitem (form req) "user_story" = Ok user_story ->
    form_getitem (form req) "context" = Ok context ->
    compose_prompt (form req) user_story context = Ok prompt ->
    respond service h [SYSTEM_PROMPT; prompt] = Replies raw ->
    Json.loads (clean_response raw) = Ok (VDict d) ->
    dict_get "error" d = Some err ->
    index markdown display (Some service) req h
    = (Ok (page user_story context
             ("<p class='error'>Error: " ++ str_value display err ++ "</p>")
             (VList [])),
       (h ++ [[SYSTEM_PROMPT; prompt]])%list).
Proof.
  intros markdown display service req h user_story context prompt raw d err
         Hm Hu Hc Hp Hr Hd Herr.
  rewrite (index_post_replied markdown display service req h
             user_story context prompt raw Hm Hu Hc Hp Hr).
  rewrite (interpret_ok _ _ Hd).
  unfold present_analysis, py_in, py_getitem, dict_mem.
  rewrite Herr. reflexivity.
Qed.

Lemma C9_witness :
  index (fun s => s) (fun _ => "") (Some (replying error_and_draft_reply))
    {| method := POST; form := scenario_A_form |} []
  = (Ok (page "As a user, I want password reset" ""
           "<p class='error'>Error: quota exceeded</p>" (VList [])),
     [[SYSTEM_PROMPT; scenario_A_prompt]]).
Proof.
  apply (C9_error_key_is_reported_in_band
           (fun s => s) (fun _ => "") (replying error_and_draft_reply)
           {| method := POST; form := scenario_A_form |} []
           "As a user, I want password reset" "" scenario_A_prompt
           error_and_draft_reply
           [("ticket_draft", VStr "x"); ("error", VStr "quota exceeded")]
           (VStr "quota exceeded"));
    reflexivity.
Defined.

(** C10. No fence and no [json] fence is left anywhere in the text that is
    decoded, also not inside a JSON string: a [ticket_draft] that holds a
    fenced snippet is decoded without its fences. *)
Theorem C10_fences_are_removed_everywhere :
  (forall raw : string,
     ~ occurs fence (clean_response raw) /\ ~ occurs json_fence (clean_response raw))
  /\ (forall (prompt : string) (h : history),
        get_ai_analysis (Some (replying fence_in_draft_reply)) prompt h
        = (Ok (VDict [("ticket_draft", VStr "run {} now");
                      ("clarifying_questions", VList []);
                      ("open_questions", VList [])]),
           (h ++ [[SYSTEM_PROMPT; prompt]])%list)).
Proof.
  split.
  - intros raw.
    assert (H : ~ occurs fence (clean_response raw)).
    { apply not_occurs_contains. apply remove_fences_clean. }
    split; [exact H |]. intros Hj. apply H. now apply (occurs_longer fence "json").
  - intros prompt h. now rewrite (get_ai_analysis_replies _ _ fence_in_draft_reply).
Qed.

End Claims.
